(** * OpenCarbon: crown-geometry pipeline and nearest-neighbour estimator

    A shallow embedding of the numeric core of the OpenCarbon workflow:

    - [models/database.py]   the allometric reference table and its seeding;
    - [models/calculator.py] the nearest-neighbour carbon estimator;
    - [utils/drone_pipeline.py] pixel boxes to map polygons, the UTM
      normalisation and the area / diameter columns;
    - [app.py] the per-crown call of the estimator with its height default,
      the session's table and the estimate column;
    - [src/pipeline.py] the total over a list of crowns;
    - [utils/satellite_pipeline.py] the NDVI-to-carbon line and the map centre.

    Numeric model.  Where the outcome of the code depends on how a double is
    rounded (the distances the database sorts by, the running total, the
    sum [x + 180] that picks the UTM zone, the mean of the map centre), the
    arithmetic is that of IEEE 754 binary64, module [Float64]: a finite
    double is the rational it denotes, every operation rounds to the nearest
    double, ties to even, with overflow to the infinities and gradual
    underflow; the sign of zero is not kept.  Map coordinates are carried as
    the rationals they denote, with [min], [max] and comparisons exact as in
    the code, and the formula [2.0 * np.sqrt(area / np.pi)] is stated in
    [R]. *)

From Stdlib Require Import ZArith QArith Qpower Qround Qminmax Qabs List Lia.
From Stdlib Require Import Reals Qreals Machin Psatz.
From Stdlib Require Import Permutation Sorted String.
Import ListNotations.

Local Open Scope Q_scope.

(** ** Doubles *)

Module Float64.

Inductive float : Type :=
| NaN
| NInf
| Finite (q : Q)
| PInf.

(** [floor(log2 q)] for [q > 0]. *)
Definition ilog2 (q : Q) : Z :=
  let k := (Z.log2 (Qnum q) - Z.log2 (Zpos (Qden q)))%Z in
  if Qle_bool (2 ^ k) q then k else (k - 1)%Z.

(** The nearest integer, ties to even. *)
Definition rne (q : Q) : Z :=
  let n := Qfloor q in
  match Qcompare (q - inject_Z n) (1 # 2) with
  | Lt => n
  | Gt => (n + 1)%Z
  | Eq => if Z.even n then n else (n + 1)%Z
  end.

(** The nearest double of [q > 0], the exponent not bounded above: 53 bits
    of precision, the last place no finer than [2^-1074]. *)
Definition rnd_pos (q : Q) : Q :=
  let ulp := Z.max (ilog2 q - 52) (-1074) in
  inject_Z (rne (q * 2 ^ (- ulp))) * 2 ^ ulp.

(** The nearest double of a rational, as a rational in lowest terms. *)
Definition rnd (q : Q) : Q :=
  let q := Qred q in
  Qred (match Qcompare q 0 with
        | Eq => 0
        | Gt => rnd_pos q
        | Lt => - rnd_pos (- q)
        end).

(** Rounding with overflow: what reaches [2^1024] is infinite. *)
Definition round (q : Q) : float :=
  let r := rnd q in
  if Qle_bool (2 ^ 1024) r then PInf
  else if Qle_bool r (- 2 ^ 1024) then NInf
  else Finite r.

(** A decimal literal of the source. *)
Definition of_Q (q : Q) : float := round q.

Definition zero : float := Finite 0.

Definition add (x y : float) : float :=
  match x, y with
  | NaN, _ | _, NaN => NaN
  | PInf, NInf | NInf, PInf => NaN
  | PInf, _ | _, PInf => PInf
  | NInf, _ | _, NInf => NInf
  | Finite a, Finite b => round (a + b)
  end.

Definition opp (x : float) : float :=
  match x with
  | NaN => NaN
  | NInf => PInf
  | PInf => NInf
  | Finite a => Finite (Qred (- a))
  end.

Definition sub (x y : float) : float := add x (opp y).

(** An infinity times or over a finite number. *)
Definition signed_inf (positive : bool) (a : Q) : float :=
  match Qcompare a 0 with
  | Eq => NaN
  | Gt => if positive then PInf else NInf
  | Lt => if positive then NInf else PInf
  end.

Definition mul (x y : float) : float :=
  match x, y with
  | NaN, _ | _, NaN => NaN
  | PInf, PInf | NInf, NInf => PInf
  | PInf, NInf | NInf, PInf => NInf
  | PInf, Finite a | Finite a, PInf => signed_inf true a
  | NInf, Finite a | Finite a, NInf => signed_inf false a
  | Finite a, Finite b => round (a * b)
  end.

(** Division by a number that is not zero. *)
Definition div (x y : float) : float :=
  match x, y with
  | NaN, _ | _, NaN => NaN
  | Finite a, Finite b => round (a / b)
  | Finite _, _ => Finite 0
  | PInf, Finite b => signed_inf true b
  | NInf, Finite b => signed_inf false b
  | _, _ => NaN
  end.

(** [x < y]; false as soon as one side is not a number. *)
Definition ltb (x y : float) : bool :=
  match x, y with
  | NaN, _ | _, NaN => false
  | _, NInf => false
  | NInf, _ => true
  | PInf, _ => false
  | _, PInf => true
  | Finite a, Finite b => negb (Qle_bool b a)
  end.

(** [x <= y]; false as soon as one side is not a number. *)
Definition leb (x y : float) : bool :=
  match x, y with
  | NaN, _ | _, NaN => false
  | NInf, _ => true
  | _, NInf => false
  | _, PInf => true
  | PInf, _ => false
  | Finite a, Finite b => Qle_bool a b
  end.

(** [x == 0.0]. *)
Definition is_zero (x : float) : bool :=
  match x with
  | Finite a => Qeq_bool a 0
  | _ => false
  end.

End Float64.

(** ** Python helpers *)

Module Py.

(** Exceptions the modelled code can raise; [CRSError] is pyproj's. *)
Inductive exn : Type :=
| MultipleResultsFound
| ValueError
| CRSError.

(** A computation that returns a value or raises. *)
Definition result (A : Type) : Type := (exn + A)%type.

Definition ret {A} (a : A) : result A := inr a.
Definition raise {A} (e : exn) : result A := inl e.

Definition bind {A B} (m : result A) (k : A -> result B) : result B :=
  match m with
  | inl e => inl e
  | inr a => k a
  end.

(** Truth value of a float: every float but zero is true. *)
Definition float_truthy (x : Float64.float) : bool :=
  negb (Float64.is_zero x).

(** [x or d] where [x] is [None] or a float. *)
Definition or_else (x : option Float64.float) (d : Float64.float)
    : Float64.float :=
  match x with
  | None => d
  | Some v => if float_truthy v then v else d
  end.

(** [a // b] on floats: the floor of the quotient, as a float. *)
Definition floordiv (a b : Q) : Q := inject_Z (Qfloor (a / b)).

(** [int(x)]: truncation towards zero. *)
Definition int (x : Q) : Z :=
  if Qle_bool 0 x then Qfloor x else Qceiling x.

End Py.

Notation "x <- m ;; k" := (Py.bind m (fun x => k))
  (at level 61, m at next level, right associativity).

(** ** models/database.py *)

Module Database.

(** A row of the table [allometric_reference]. *)
Record AllometricReference : Type := mkRef {
  id : Z;
  crown_diameter_m : Float64.float;
  height_m : Float64.float;
  carbon_tonnes : Float64.float
}.

(** The table, in rowid order. *)
Definition table : Type := list AllometricReference.

(** The primary key is [autoincrement]: one more than the largest one. *)
Definition next_id (t : table) : Z :=
  fold_right (fun r m => Z.max (id r + 1) m) 1%Z t.

(** [session.add_all(rows); session.commit()], rows given without key. *)
Fixpoint add_all (rows : list (Q * Q * Q)) (t : table) : table :=
  match rows with
  | [] => t
  | (d, h, c) :: rows' =>
      add_all rows'
        (t ++ [mkRef (next_id t) (Float64.of_Q d) (Float64.of_Q h)
                     (Float64.of_Q c)])
  end.

(** The literals of lines 43-46. *)
Definition sample_rows : list (Q * Q * Q) :=
  [ (2.0, 4.0, 0.03); (4.0, 8.0, 0.12); (6.0, 12.0, 0.35); (8.0, 16.0, 0.75) ].

(** [DatabaseManager.seed_defaults]: nothing happens once a row exists. *)
Definition seed_defaults (t : table) : table :=
  match t with
  | _ :: _ => t
  | [] => add_all sample_rows t
  end.

End Database.

(** ** models/calculator.py *)

Module Calculator.
Import Database.

(** The order of [ORDER BY ... ASC] on what a REAL expression gives: SQLite
    turns a NaN into NULL, and NULL comes before every number. *)
Definition sql_leb (x y : Float64.float) : bool :=
  match x, y with
  | Float64.NaN, _ => true
  | _, Float64.NaN => false
  | Float64.NInf, _ => true
  | _, Float64.NInf => false
  | _, Float64.PInf => true
  | Float64.PInf, _ => false
  | Float64.Finite a, Float64.Finite b => Qle_bool a b
  end.

Section Query.
Context {A : Type}.

(** [ORDER BY key ASC].  SQL leaves the order among rows of equal key
    open; the model takes a stable insertion sort, which keeps such rows in
    rowid order. *)
Fixpoint insert_asc (key : A -> Float64.float) (x : A) (l : list A) : list A :=
  match l with
  | [] => [x]
  | y :: l' =>
      if sql_leb (key x) (key y) then x :: y :: l'
      else y :: insert_asc key x l'
  end.

Definition order_by (key : A -> Float64.float) (l : list A) : list A :=
  fold_right (insert_asc key) [] l.

(** Two rows in the order of their keys. *)
Definition key_le (key : A -> Float64.float) (x y : A) : Prop :=
  sql_leb (key x) (key y) = true.

(** [LIMIT n]. *)
Definition limit (n : nat) (l : list A) : list A := firstn n l.

(** [Result.scalar_one_or_none]. *)
Definition scalar_one_or_none (l : list A) : Py.result (option A) :=
  match l with
  | [] => Py.ret None
  | [r] => Py.ret (Some r)
  | _ :: _ :: _ => Py.raise Py.MultipleResultsFound
  end.
End Query.

(** [pow(x, 2)], taken as the correctly rounded square. *)
Definition pow2 (x : Float64.float) : Float64.float := Float64.mul x x.

(** The SQL expression
    [pow(crown_diameter_m - :d, 2) + pow(height_m - :h, 2)], evaluated in
    doubles as SQLite does. *)
Definition distance_expr (d h : Float64.float) (r : AllometricReference)
    : Float64.float :=
  Float64.add (pow2 (Float64.sub (crown_diameter_m r) d))
              (pow2 (Float64.sub (height_m r) h)).

(** [Calculator.estimate_carbon_tonnes]. *)
Definition estimate_carbon_tonnes (db : table) (d h : Float64.float)
    : Py.result Float64.float :=
  row <- scalar_one_or_none (limit 1 (order_by (distance_expr d h) db)) ;;
  match row with
  | Some r => Py.ret (carbon_tonnes r)
  | None => Py.ret (Float64.of_Q 0.0)
  end.

End Calculator.

(** ** utils/drone_pipeline.py *)

Module DronePipeline.

Definition point : Type := (Q * Q)%type.

(** *** The raster's georeference (rasterio, affine) *)

(** [affine.Affine(a, b, c, d, e, f)]: [x = a*col + b*row + c] and
    [y = d*col + e*row + f]. *)
Record Affine : Type := mkAffine {
  a : Q; b : Q; c : Q;
  d : Q; e : Q; f : Q
}.

Definition affine_mul (t : Affine) (p : point) : point :=
  let '(col, row) := p in
  (a t * col + b t * row + c t, d t * col + e t * row + f t).

(** The [offset] argument of [rasterio.transform.xy]. *)
Inductive offset : Type := center | ul | ur | ll | lr.

Definition coff (o : offset) : Q :=
  match o with center => 0.5 | ul => 0 | ur => 1 | ll => 0 | lr => 1 end.

Definition roff (o : offset) : Q :=
  match o with center => 0.5 | ul => 0 | ur => 0 | ll => 1 | lr => 1 end.

(** [rasterio.transform.xy(transform, row, col, offset)]. *)
Definition xy (t : Affine) (row col : Q) (o : offset) : point :=
  affine_mul t (col + coff o, row + roff o).

(** *** Geometries (shapely) *)

(** A polygon is its exterior ring, the closing vertex left out. *)
Definition Polygon : Type := list point.

(** [shapely.geometry.box(minx, miny, maxx, maxy)], counter-clockwise. *)
Definition box (minx miny maxx maxy : Q) : Polygon :=
  [ (maxx, miny); (maxx, maxy); (minx, maxy); (minx, miny) ].

Definition cross (p q : point) : Q := fst p * snd q - fst q * snd p.

(** Twice the signed area of the ring that starts at [first]. *)
Fixpoint shoelace (first : point) (ring : list point) : Q :=
  match ring with
  | [] => 0
  | p :: tl =>
      match tl with
      | [] => cross p first
      | q :: _ => cross p q + shoelace first tl
      end
  end.

(** [Polygon.area]. *)
Definition area (g : Polygon) : Q :=
  match g with
  | [] => 0
  | p :: _ => Qabs (shoelace p g) / 2
  end.

(** *** The detector's output (DeepForest) *)

Record DetectionBox : Type := mkBox {
  xmin : Q; ymin : Q; xmax : Q; ymax : Q;
  score : Q;
  label : string
}.

(** Lines 52-57: one pixel box to its map rectangle. *)
Definition box_to_polygon (transform : Affine) (row : DetectionBox) : Polygon :=
  let '(x1, y1) := xy transform (ymin row) (xmin row) ul in
  let '(x2, y2) := xy transform (ymax row) (xmax row) ul in
  box (Qmin x1 x2) (Qmin y1 y2) (Qmax x1 x2) (Qmax y1 y2).

(** Lines 50-57: the loop that fills [polygons]. *)
Definition pixel_boxes_to_polygons (transform : Affine)
    (detections_df : list DetectionBox) : list Polygon :=
  fold_left (fun polygons row => polygons ++ [box_to_polygon transform row])
            detections_df [].

(** *** Coordinate reference systems (pyproj, shapely set operations)

    What the pipeline asks of pyproj and of shapely's set operations. *)

Class GeoBackend : Type := {
  CRS : Type;
  (* CRS.is_geographic *)
  is_geographic : CRS -> bool;
  (* CRS.from_epsg: [None] for a code the EPSG registry does not hold,
     where pyproj raises CRSError *)
  from_epsg : Z -> option CRS;
  (* the coordinate transformation from one system to another *)
  transform_point : CRS -> CRS -> point -> point;
  (* GeoSeries.unary_union.centroid *)
  unary_union_centroid : list Polygon -> point;
  (* Polygon.centroid *)
  polygon_centroid : Polygon -> point
}.

Section Pipeline.
Context {G : GeoBackend}.

(** A row of the frame: the detector's columns and the geometry. *)
Record Crown : Type := mkCrown {
  detection : DetectionBox;
  geometry : Polygon
}.

Record GeoDataFrame : Type := mkFrame {
  rows : list Crown;
  crs : option CRS
}.

(** [GeoDataFrame(detections_df.copy(), geometry=polygons, crs=crs)]. *)
Definition make_frame (detections_df : list DetectionBox)
    (polygons : list Polygon) (crs : option CRS) : GeoDataFrame :=
  mkFrame (map (fun dp => mkCrown (fst dp) (snd dp))
               (combine detections_df polygons)) crs.

(** [CRS.from_user_input(src.crs)], line 42: a raster without CRS has
    [src.crs = None], of which pyproj makes no CRS. *)
Definition from_user_input (src_crs : option CRS) : Py.result CRS :=
  match src_crs with
  | None => Py.raise Py.CRSError
  | Some crs => Py.ret crs
  end.

(** [GeoDataFrame.to_crs(epsg=code)]: every vertex is transformed; a
    frame without CRS cannot be transformed, and the code has to be one of
    the registry. *)
Definition to_crs (epsg : Z) (gdf : GeoDataFrame) : Py.result GeoDataFrame :=
  match crs gdf with
  | None => Py.raise Py.ValueError
  | Some src =>
      match from_epsg epsg with
      | None => Py.raise Py.CRSError
      | Some dst =>
          Py.ret (mkFrame
            (map (fun r => mkCrown (detection r)
                             (map (transform_point src dst) (geometry r)))
                 (rows gdf))
            (Some dst))
      end
  end.

(** Line 64; the coordinates of the centroid are doubles, and the sum
    [centroid.x + 180] is rounded to a double before it is divided. *)
Definition utm_zone (centroid : point) : Z :=
  (Py.int (Py.floordiv (Float64.rnd (fst centroid + 180)) 6) + 1)%Z.

(** Line 65. *)
Definition utm_epsg (centroid : point) : Z :=
  if Qle_bool 0 (snd centroid) then (32600 + utm_zone centroid)%Z
  else (32700 + utm_zone centroid)%Z.

(** Lines 61-66: "Ensure metric units for area and crown diameter." *)
Definition ensure_metric_units (crowns : GeoDataFrame) : Py.result GeoDataFrame :=
  match crs crowns with
  | Some c =>
      if is_geographic c then
        let centroid := unary_union_centroid (map geometry (rows crowns)) in
        to_crs (utm_epsg centroid) crowns
      else Py.ret crowns
  | None => Py.ret crowns
  end.

(** A row once the columns of lines 68-70 are there. *)
Record CrownRow : Type := mkRow {
  crown : Crown;
  centroid : point;
  crown_area_m2 : Q;
  crown_diameter_m : R
}.

Record CrownFrame : Type := mkCrownFrame {
  crown_rows : list CrownRow;
  crown_crs : option CRS
}.

(** Line 70, for one value of the area column. *)
Definition equivalent_diameter (crown_area_m2 : Q) : R :=
  (2 * sqrt (Q2R crown_area_m2 / PI))%R.

(** Lines 68-70. *)
Definition derive_columns (crowns : GeoDataFrame) : CrownFrame :=
  mkCrownFrame
    (map (fun r =>
            let area_m2 := area (geometry r) in
            mkRow r (polygon_centroid (geometry r)) area_m2
                  (equivalent_diameter area_m2))
         (rows crowns))
    (crs crowns).

(** Lines 61-70: normalisation followed by the derived columns. *)
Definition normalize_and_derive (crowns : GeoDataFrame) : Py.result CrownFrame :=
  metric <- ensure_metric_units crowns ;;
  Py.ret (derive_columns metric).

Record DroneDetectionResult : Type := mkResult {
  crowns_gdf : CrownFrame;
  source_crs : CRS
}.

(** [detect_tree_crowns_from_orthomosaic], from the raster's transform and
    [src.crs] (lines 40-42) and the detector's answer (line 45), which is
    [None] or a frame of boxes. *)
Definition detect_tree_crowns_from_orthomosaic (transform : Affine)
    (src_crs : option CRS) (detections_df : option (list DetectionBox))
    : Py.result DroneDetectionResult :=
  crs <- from_user_input src_crs ;;
  match detections_df with
  | None | Some [] => Py.ret (mkResult (mkCrownFrame [] (Some crs)) crs)
  | Some detections_df =>
      let polygons := pixel_boxes_to_polygons transform detections_df in
      let crowns := make_frame detections_df polygons (Some crs) in
      out <- normalize_and_derive crowns ;;
      Py.ret (mkResult out crs)
  end.

End Pipeline.

End DronePipeline.

(** ** app.py *)

Module App.

(** What the lambda of [drone_upload_page] reads from a row: the diameter
    column as the float it is stored as, and the height column, which may
    be absent or hold [None]. *)
Record Series : Type := mkSeries {
  crown_diameter_m : Float64.float;
  max_height_m : option Float64.float
}.

(** Line 53. *)
Definition est_carbon_t (calc : Database.table) (r : Series)
    : Py.result Float64.float :=
  Calculator.estimate_carbon_tonnes calc (crown_diameter_m r)
    (Py.or_else (max_height_m r) (Float64.of_Q 10.0)).

End App.

(** ** app.py, the state and the estimate column *)

Module AppPages.
Import Database.

(** [DatabaseManager.create_tables]: [create_all] makes the table when the
    database has none, and leaves an existing one alone. *)
Definition create_tables (db : option table) : table :=
  match db with
  | None => []
  | Some t => t
  end.

(** [init_state]: the table the calculator of the session reads. *)
Definition init_state (db : option table) : table :=
  seed_defaults (create_tables db).

(** [DataFrame.apply(f, axis=1)]: [f] on every row, in order; the first
    exception ends it. *)
Fixpoint apply_rows {A B : Type} (f : A -> Py.result B) (rows : list A)
    : Py.result (list B) :=
  match rows with
  | [] => Py.ret []
  | r :: rows' =>
      v <- f r ;;
      vs <- apply_rows f rows' ;;
      Py.ret (v :: vs)
  end.

(** Lines 52-55: the column [est_carbon_t]. *)
Definition est_carbon_t_column (calc : table) (crowns : list App.Series)
    : Py.result (list Float64.float) :=
  apply_rows (App.est_carbon_t calc) crowns.

End AppPages.

(** ** src/pipeline.py *)

Module Orchestration.

(** [summarize_total_carbon]: [total] starts at [0.0] and grows by one
    estimate, added in doubles, for each pair of
    [zip(diameters_m, heights_m)]. *)
Definition summarize_total_carbon (diameters_m heights_m : list Float64.float)
    (calculator : Database.table) : Py.result Float64.float :=
  fold_left
    (fun total dh =>
       acc <- total ;;
       est <- Calculator.estimate_carbon_tonnes calculator (fst dh) (snd dh) ;;
       Py.ret (Float64.add acc est))
    (combine diameters_m heights_m)
    (Py.ret (Float64.of_Q 0.0)).

End Orchestration.

(** ** utils/satellite_pipeline.py *)

Module SatellitePipeline.

(** What lines 52-57 can raise. *)
Inductive exn : Type :=
| IndexError
| ZeroDivisionError.

Definition result (A : Type) : Type := (exn + A)%type.

(** [normalizedDifference(["B8", "B4"])] at one pixel. *)
Definition normalizedDifference (b8 b4 : Q) : Q := (b8 - b4) / (b8 + b4).

(** Line 41, [ndvi.multiply(12).add(2)], at one pixel. *)
Definition carbon_t_ha (ndvi : Q) : Q := ndvi * 12 + 2.

(** A GeoJSON position [[lon, lat]]. *)
Definition position : Type := (Float64.float * Float64.float)%type.

(** [sum(f(pt) for pt in coords)]: from [0], left to right, in doubles. *)
Definition sum_of (f : position -> Float64.float) (coords : list position)
    : Float64.float :=
  fold_left (fun s pt => Float64.add s (f pt)) coords Float64.zero.

(** Lines 52-57.  The geometry either has no ["coordinates"] or is a
    polygon, whose coordinates are its rings; the centre is [[lat, lon]]. *)
Definition map_center (coordinates : option (list (list position)))
    : result (Float64.float * Float64.float) :=
  match coordinates with
  | None => inr (Float64.zero, Float64.zero)
  | Some rings =>
      match rings with
      | [] => inl IndexError
      | coords :: _ =>
          let n := List.length coords in
          if Nat.eqb n 0 then inl ZeroDivisionError
          else
            let len := Float64.of_Q (inject_Z (Z.of_nat n)) in
            inr (Float64.div (sum_of snd coords) len,
                 Float64.div (sum_of fst coords) len)
      end
  end.

End SatellitePipeline.

(** ** What the specification says where the code does otherwise *)

Module SkipPolicy.
Import DronePipeline.

(** A box whose corners are not in order. *)
Definition malformed (bx : DetectionBox) : bool :=
  Qle_bool (xmax bx) (xmin bx) || Qle_bool (ymax bx) (ymin bx).

(** The transformer the error taxonomy describes: malformed boxes are
    skipped and counted. *)
Definition skip_malformed (transform : Affine) (boxes : list DetectionBox)
    : list Polygon * nat :=
  (map (box_to_polygon transform)
       (filter (fun bx => negb (malformed bx)) boxes),
   List.length (filter malformed boxes)).

End SkipPolicy.

Module Exact.
Import Database.



(** The zone of the specification, [floor((longitude + 180) / 6) + 1],
    without rounding. *)
Definition utm_zone (longitude : Q) : Z :=
  (Qfloor ((longitude + 180) / 6) + 1)%Z.

End Exact.

(** ** Concrete data to run the model on *)

Module Fixtures.
Import DronePipeline.

(** The table a first run leaves behind. *)
Definition seed : Database.table := Database.seed_defaults [].

(** The seeded rows for (4, 8) and (6, 12). *)
Definition row_4_8 : Database.AllometricReference :=
  Database.mkRef 2 (Float64.of_Q 4.0) (Float64.of_Q 8.0) (Float64.of_Q 0.12).
Definition row_6_12 : Database.AllometricReference :=
  Database.mkRef 3 (Float64.of_Q 6.0) (Float64.of_Q 12.0) (Float64.of_Q 0.35).


(** The mean of the vertices; the centroid of a single rectangle. *)
Definition vertex_mean (pts : list point) : point :=
  let n := inject_Z (Z.of_nat (List.length pts)) in
  (fold_right (fun p s => fst p + s) 0 pts / n,
   fold_right (fun p s => snd p + s) 0 pts / n).

(** The codes of the UTM zones, and WGS 84. *)
Definition known_epsg (code : Z) : bool :=
  ((code =? 4326) || ((32601 <=? code) && (code <=? 32660))
   || ((32701 <=? code) && (code <=? 32760)))%Z.

(** A backend to run the pipeline on concrete batches: a CRS is its EPSG
    code, 4326 is the geographic one, centroids are vertex means (exact for
    a batch of one rectangle) and the coordinate transformation is a
    placeholder that keeps the coordinates. *)
Definition epsg_backend : GeoBackend := {|
  CRS := Z;
  is_geographic := fun code => (code =? 4326)%Z;
  from_epsg := fun code => if known_epsg code then Some code else None;
  transform_point := fun _ _ p => p;
  unary_union_centroid := fun polys => vertex_mean (List.concat polys);
  polygon_centroid := vertex_mean
|}.

(** A north-up raster: 10 cm pixels, rows grow southwards. *)
Definition north_up : Affine := mkAffine 0.1 0 500000 0 (-0.1) 5450000.

Definition good_box : DetectionBox := mkBox 10 20 110 120 0.9 "Tree".
(** [xmin > xmax] and [ymin > ymax]. *)
Definition bad_box : DetectionBox := mkBox 50 60 30 40 0.4 "Tree".

(** A 10 m x 10 m square. *)
Definition square : Polygon := box 0 0 10 10.

(** One square crown in UTM 10N, and a crown around (123.125 W, 49.1875 N)
    in geographic coordinates. *)
Definition frame_utm : @GeoDataFrame epsg_backend :=
  @mkFrame epsg_backend [mkCrown good_box square] (Some 32610%Z).
Definition frame_wgs84 : @GeoDataFrame epsg_backend :=
  @mkFrame epsg_backend
    [mkCrown good_box (box (-123.25) 49.125 (-123) 49.25)] (Some 4326%Z).

(** The double [-6.000000000000001], one place west of 6 W. *)
Definition west_of_6W : Q := - (6 + (1 # 2 ^ 50)).


End Fixtures.

(** * Properties *)

(** ** The estimator *)

Section CalculatorFacts.
Import Database Calculator.

Lemma sql_leb_refl (x : Float64.float) : sql_leb x x = true.
Proof.
  destruct x; simpl; try reflexivity.
  apply Qle_bool_iff, Qle_refl.
Qed.

Lemma sql_leb_total (x y : Float64.float) :
  sql_leb x y = false -> sql_leb y x = true.
Proof.
  destruct x, y; simpl; try reflexivity; try discriminate.
  intros Hxy. apply Qle_bool_iff, Qlt_le_weak, Qnot_le_lt.
  intros Hle. apply Qle_bool_iff in Hle. congruence.
Qed.

Lemma sql_leb_trans (x y z : Float64.float) :
  sql_leb x y = true -> sql_leb y z = true -> sql_leb x z = true.
Proof.
  destruct x, y, z; simpl; try reflexivity; try discriminate.
  intros Hxy Hyz. apply Qle_bool_iff in Hxy, Hyz.
  apply Qle_bool_iff. eapply Qle_trans; eassumption.
Qed.

Context {A : Type} (key : A -> Float64.float).

Lemma insert_asc_perm (x : A) (l : list A) :
  Permutation (insert_asc key x l) (x :: l).
Proof.
  induction l as [|y l IH]; simpl.
  - apply Permutation_refl.
  - destruct (sql_leb (key x) (key y)).
    + apply Permutation_refl.
    + eapply perm_trans; [apply perm_skip, IH | apply perm_swap].
Qed.

Lemma order_by_perm (l : list A) : Permutation (order_by key l) l.
Proof.
  induction l as [|x l IH]; simpl.
  - constructor.
  - eapply perm_trans; [apply insert_asc_perm | apply perm_skip, IH].
Qed.

Lemma insert_asc_sorted (x : A) (l : list A) :
  StronglySorted (key_le key) l -> StronglySorted (key_le key) (insert_asc key x l).
Proof.
  induction l as [|y l IH]; intros Hs; simpl.
  - repeat constructor.
  - inversion Hs as [|? ? Hl Hy]; subst.
    destruct (sql_leb (key x) (key y)) eqn:Hxy.
    + constructor; [assumption|].
      constructor; [exact Hxy|].
      eapply Forall_impl; [|exact Hy].
      intros z Hz. unfold key_le in *. eapply sql_leb_trans; eassumption.
    + apply sql_leb_total in Hxy.
      constructor; [apply IH, Hl|].
      eapply Permutation_Forall.
      * apply Permutation_sym, insert_asc_perm.
      * constructor; assumption.
Qed.

Lemma order_by_sorted (l : list A) : StronglySorted (key_le key) (order_by key l).
Proof.
  induction l as [|x l IH]; simpl.
  - constructor.
  - apply insert_asc_sorted, IH.
Qed.

(** Whatever the order among rows of equal key, the first row of a table
    sorted by [key] has a least key. *)
Lemma sorted_head_least (l sorted : list A) (r : A) (rest : list A) :
  Permutation sorted l ->
  StronglySorted (key_le key) sorted ->
  sorted = r :: rest ->
  In r l /\ forall r', In r' l -> sql_leb (key r) (key r') = true.
Proof.
  intros Hp Hs ->. split.
  - eapply Permutation_in; [exact Hp | left; reflexivity].
  - intros r' Hin.
    apply Permutation_sym in Hp.
    apply (Permutation_in _ Hp) in Hin.
    inversion Hs as [|? ? _ Hall]; subst.
    destruct Hin as [->|Hin].
    + apply sql_leb_refl.
    + rewrite Forall_forall in Hall. apply Hall, Hin.
Qed.

(** The first row of [ORDER BY key ASC] has a least key. *)
Lemma order_by_head (l : list A) :
  l <> [] ->
  exists r rest, order_by key l = r :: rest /\ In r l /\
                 forall r', In r' l -> sql_leb (key r) (key r') = true.
Proof.
  intros Hne.
  destruct (order_by key l) as [|r rest] eqn:Ho.
  - pose proof (order_by_perm l) as Hp. rewrite Ho in Hp.
    apply Permutation_nil in Hp. contradiction.
  - exists r, rest. split; [reflexivity|].
    apply (sorted_head_least l (order_by key l) r rest).
    + apply order_by_perm.
    + apply order_by_sorted.
    + exact Ho.
Qed.

End CalculatorFacts.

Module CalculatorSpec.
Import Database Calculator Fixtures.




(** C6. On the empty table [estimate_carbon_tonnes] returns [0.0], for every
    query, and raises nothing. *)
Theorem estimate_empty_store (d h : Float64.float) :
  estimate_carbon_tonnes [] d h = Py.ret (Float64.of_Q 0.0).
Proof. reflexivity. Qed.

(** C8, as stated, fails: for the query (5, 10) the row (4, 8) is not
    strictly closer than every other seeded row, the row (6, 12) is at the
    same squared distance 5. *)
Lemma seed_5_10_not_strict :
  ~ (forall r, In r seed -> r <> row_4_8 ->
       Float64.ltb
         (distance_expr (Float64.of_Q 5.0) (Float64.of_Q 10.0) row_4_8)
         (distance_expr (Float64.of_Q 5.0) (Float64.of_Q 10.0) r)
       = true).
Proof.
  intros H.
  assert (Hlt : Float64.ltb
                  (distance_expr (Float64.of_Q 5.0) (Float64.of_Q 10.0) row_4_8)
                  (distance_expr (Float64.of_Q 5.0) (Float64.of_Q 10.0) row_6_12)
                = true).
  { apply H; [vm_compute; tauto | vm_compute; discriminate]. }
  vm_compute in Hlt. discriminate.
Qed.

(** C8, amended. Against the seeded table, [estimate(4.0, 8.0)] returns
    exactly [0.12]; for the query (5.0, 10.0) the squared distances of the
    four rows are 45, 5, 5 and 45, so that the rows (4, 8) and (6, 12) tie
    for the least distance 5, and with ties kept in rowid order the
    estimate is the [0.12] of the row (4, 8). *)
Theorem seed_estimates :
  estimate_carbon_tonnes seed (Float64.of_Q 4.0) (Float64.of_Q 8.0)
  = Py.ret (Float64.of_Q 0.12) /\
  estimate_carbon_tonnes seed (Float64.of_Q 5.0) (Float64.of_Q 10.0)
  = Py.ret (Float64.of_Q 0.12) /\
  map (distance_expr (Float64.of_Q 5.0) (Float64.of_Q 10.0)) seed
  = map Float64.Finite [45; 5; 5; 45] /\
  map (distance_expr (Float64.of_Q 4.0) (Float64.of_Q 8.0)) seed
  = map Float64.Finite [20; 0; 20; 80].
Proof.
  repeat split; vm_compute; reflexivity.
Qed.

(** Whichever of the tied rows the database puts first, the estimate for
    (5.0, 10.0) is the carbon of the row (4, 8) or of the row (6, 12). *)
Lemma seed_5_10_any_tie_order (sorted : table) (r : AllometricReference)
    (rest : table) :
  Permutation sorted seed ->
  StronglySorted
    (key_le (distance_expr (Float64.of_Q 5.0) (Float64.of_Q 10.0))) sorted ->
  sorted = r :: rest ->
  r = row_4_8 \/ r = row_6_12.
Proof.
  intros Hp Hs Hhd.
  destruct (sorted_head_least
              (distance_expr (Float64.of_Q 5.0) (Float64.of_Q 10.0))
              seed sorted r rest Hp Hs Hhd) as [Hin Hmin].
  assert (Hle : sql_leb
                  (distance_expr (Float64.of_Q 5.0) (Float64.of_Q 10.0) r)
                  (distance_expr (Float64.of_Q 5.0) (Float64.of_Q 10.0) row_4_8)
                = true).
  { apply Hmin. vm_compute. tauto. }
  vm_compute in Hin.
  destruct Hin as [<-|[<-|[<-|[<-|[]]]]].
  - vm_compute in Hle. discriminate.
  - left; vm_compute; reflexivity.
  - right; vm_compute; reflexivity.
  - vm_compute in Hle. discriminate.
Qed.

End CalculatorSpec.

Module AppSpec.
Import App.

(** C10. The caller substitutes the default height [10.0] when a crown has
    no [max_height_m] and also when the recorded [max_height_m] is zero:
    both crowns get the estimate of the query [(diameter, 10.0)]. *)
Theorem zero_height_is_defaulted (calc : Database.table)
    (d h : Float64.float) :
  Float64.is_zero h = true ->
  est_carbon_t calc (mkSeries d (Some h)) = est_carbon_t calc (mkSeries d None) /\
  est_carbon_t calc (mkSeries d None)
    = Calculator.estimate_carbon_tonnes calc d (Float64.of_Q 10.0).
Proof.
  intros Hz. unfold est_carbon_t; simpl.
  unfold Py.float_truthy. rewrite Hz. simpl. split; reflexivity.
Qed.

Lemma zero_height_is_defaulted_witness :
  est_carbon_t Fixtures.seed (mkSeries (Float64.of_Q 4.0) (Some (Float64.of_Q 0.0)))
    = est_carbon_t Fixtures.seed (mkSeries (Float64.of_Q 4.0) None) /\
  est_carbon_t Fixtures.seed (mkSeries (Float64.of_Q 4.0) None)
    = Calculator.estimate_carbon_tonnes Fixtures.seed (Float64.of_Q 4.0)
        (Float64.of_Q 10.0).
Proof.
  apply (zero_height_is_defaulted Fixtures.seed (Float64.of_Q 4.0)
           (Float64.of_Q 0.0)).
  reflexivity.
Defined.

End AppSpec.

(** ** The pixel-to-map transformer *)

Module TransformerSpec.
Import DronePipeline.

Lemma append_loop {X Y : Type} (g : X -> Y) (l : list X) (acc : list Y) :
  fold_left (fun polygons row => polygons ++ [g row]) l acc = acc ++ map g l.
Proof.
  revert acc. induction l as [|x l IH]; intros acc; simpl.
  - symmetry. apply app_nil_r.
  - rewrite IH, <- app_assoc. reflexivity.
Qed.

Lemma pixel_boxes_to_polygons_map (t : Affine) (boxes : list DetectionBox) :
  pixel_boxes_to_polygons t boxes = map (box_to_polygon t) boxes.
Proof. unfold pixel_boxes_to_polygons. now rewrite append_loop. Qed.

Lemma xy_ul (t : Affine) (row col : Q) :
  fst (xy t row col ul) == a t * col + b t * row + c t /\
  snd (xy t row col ul) == d t * col + e t * row + f t.
Proof. unfold xy, affine_mul; simpl. split; ring. Qed.

(** C4. For every box and every affine transform, the polygon of the box
    is the axis-aligned rectangle [min(x1,x2), min(y1,y2), max(x1,x2),
    max(y1,y2)] of the images [(x1,y1)] of the pixel corner [(xmin,ymin)]
    and [(x2,y2)] of [(xmax,ymax)] under the transform, taken at the
    upper-left corner of the pixel (no half-pixel shift); its bounds are in
    order whatever the signs of the transform's coefficients. *)
Theorem box_to_polygon_spans_corners (t : Affine) (bx : DetectionBox) :
  exists x1 y1 x2 y2,
    x1 == a t * xmin bx + b t * ymin bx + c t /\
    y1 == d t * xmin bx + e t * ymin bx + f t /\
    x2 == a t * xmax bx + b t * ymax bx + c t /\
    y2 == d t * xmax bx + e t * ymax bx + f t /\
    box_to_polygon t bx
      = box (Qmin x1 x2) (Qmin y1 y2) (Qmax x1 x2) (Qmax y1 y2) /\
    Qmin x1 x2 <= Qmax x1 x2 /\ Qmin y1 y2 <= Qmax y1 y2.
Proof.
  destruct (xy_ul t (ymin bx) (xmin bx)) as [Hx1 Hy1].
  destruct (xy_ul t (ymax bx) (xmax bx)) as [Hx2 Hy2].
  unfold box_to_polygon.
  destruct (xy t (ymin bx) (xmin bx) ul) as [x1 y1].
  destruct (xy t (ymax bx) (xmax bx) ul) as [x2 y2].
  simpl in *.
  exists x1, y1, x2, y2.
  repeat split; try assumption.
  - eapply Qle_trans; [apply Q.le_min_l | apply Q.le_max_l].
  - eapply Qle_trans; [apply Q.le_min_l | apply Q.le_max_l].
Qed.

(** C9, as stated, fails: on a batch with a malformed box the transformer
    does not produce what skipping the box would, the box gets a polygon. *)
Lemma malformed_box_not_skipped :
  SkipPolicy.malformed Fixtures.bad_box = true /\
  pixel_boxes_to_polygons Fixtures.north_up [Fixtures.bad_box; Fixtures.good_box]
    <> fst (SkipPolicy.skip_malformed Fixtures.north_up
              [Fixtures.bad_box; Fixtures.good_box]).
Proof.
  split; [reflexivity|].
  intros H. apply (f_equal (@List.length _)) in H.
  rewrite pixel_boxes_to_polygons_map in H. simpl in H. discriminate.
Qed.

(** C9, amended. The transformer skips no box and counts none: for every
    batch, boxes with [xmin >= xmax] or [ymin >= ymax] included, it returns
    one rectangle for each box, in the order of the boxes. *)
Theorem every_box_gets_a_polygon (t : Affine) (boxes : list DetectionBox) :
  pixel_boxes_to_polygons t boxes = map (box_to_polygon t) boxes /\
  List.length (pixel_boxes_to_polygons t boxes) = List.length boxes.
Proof.
  rewrite pixel_boxes_to_polygons_map. split; [reflexivity|].
  apply length_map.
Qed.

End TransformerSpec.

(** ** The CRS normaliser *)

Module NormalizerSpec.
Import DronePipeline.

Lemma int_floordiv (x y : Q) : Py.int (Py.floordiv x y) = Qfloor (x / y).
Proof.
  unfold Py.int, Py.floordiv.
  destruct (Qle_bool 0 (inject_Z (Qfloor (x / y)))).
  - apply Qfloor_Z.
  - apply Qceiling_Z.
Qed.


Section Backend.
Context {G : GeoBackend}.

Lemma utm_zone_floor (p : point) :
  utm_zone p = (Qfloor (Float64.rnd (fst p + 180) / 6) + 1)%Z.
Proof. unfold utm_zone. now rewrite int_floordiv. Qed.


(** C7. For a batch whose CRS is projected, that is, not geographic,
    normalisation is the identity: the frame comes back as it went in,
    nothing is transformed, and the columns are derived from the input
    geometries. *)
Theorem metric_batch_unchanged (crowns : GeoDataFrame) (src : CRS) :
  crs crowns = Some src ->
  is_geographic src = false ->
  ensure_metric_units crowns = Py.ret crowns /\
  normalize_and_derive crowns = Py.ret (derive_columns crowns).
Proof.
  intros Hcrs Hgeo.
  unfold normalize_and_derive, ensure_metric_units.
  rewrite Hcrs, Hgeo. split; reflexivity.
Qed.

(** What normalisation can do: return a frame with the detector's columns
    as they were, the frame itself when its CRS is not geographic, or end
    in CRSError on a geographic frame whose UTM code the registry lacks. *)
Lemma ensure_metric_units_cases (crowns : GeoDataFrame) :
  (exists metric,
     ensure_metric_units crowns = Py.ret metric /\
     map detection (rows metric) = map detection (rows crowns) /\
     (forall src, crs crowns = Some src -> is_geographic src = false ->
                  metric = crowns) /\
     (crs crowns <> None -> crs metric <> None)) \/
  (ensure_metric_units crowns = Py.raise Py.CRSError /\
   exists src,
     crs crowns = Some src /\ is_geographic src = true /\
     from_epsg (utm_epsg (unary_union_centroid (map geometry (rows crowns))))
     = None).
Proof.
  unfold ensure_metric_units.
  destruct (crs crowns) as [src|] eqn:Hcrs.
  - destruct (is_geographic src) eqn:Hgeo.
    + unfold to_crs. rewrite Hcrs.
      destruct (from_epsg
                  (utm_epsg (unary_union_centroid (map geometry (rows crowns)))))
        as [dst|] eqn:Hdst.
      * left. eexists. split; [reflexivity|]. split; [|split].
        -- cbn [rows]. rewrite map_map. reflexivity.
        -- intros src' Hsrc Hno. congruence.
        -- intros _. discriminate.
      * right. split; [reflexivity|]. exists src. repeat split; assumption.
    + left. exists crowns. repeat split. intros _. rewrite Hcrs. discriminate.
  - left. exists crowns. repeat split. intros H; now elim H.
Qed.

End Backend.



Lemma metric_batch_unchanged_witness :
  ensure_metric_units Fixtures.frame_utm = Py.ret Fixtures.frame_utm /\
  normalize_and_derive Fixtures.frame_utm
    = Py.ret (derive_columns Fixtures.frame_utm).
Proof.
  apply (@metric_batch_unchanged Fixtures.epsg_backend
           Fixtures.frame_utm 32610%Z); reflexivity.
Defined.

End NormalizerSpec.

(** ** The crown geometry deriver *)

Module DeriverSpec.
Import DronePipeline.

(** The area of a box is that of its rectangle. *)
Lemma area_box (minx miny maxx maxy : Q) :
  area (box minx miny maxx maxy) == Qabs ((maxx - minx) * (maxy - miny)).
Proof.
  unfold area, box, shoelace, cross; cbn [fst snd].
  assert (Hs : maxx * maxy - maxx * miny
               + (maxx * maxy - minx * maxy
                  + (minx * miny - minx * maxy
                     + (minx * miny - maxx * miny)))
               == 2 * ((maxx - minx) * (maxy - miny))) by ring.
  rewrite Hs, Qabs_Qmult.
  change (Qabs 2) with 2. field.
Qed.

Lemma area_square_10 (x y : Q) : area (box x y (x + 10) (y + 10)) == 100.
Proof.
  rewrite area_box.
  assert (Hs : (x + 10 - x) * (y + 10 - y) == 100) by ring.
  rewrite Hs. reflexivity.
Qed.

Local Open Scope R_scope.

Lemma PI_5_digits : 3.14159 < PI < 3.1416.
Proof.
  destruct (PI_2_3_7_ineq 2) as [Hlo Hhi].
  unfold PI_2_3_7_tg, tg_alt, Ratan_seq in Hlo, Hhi.
  cbn [sum_f_R0 Nat.mul Nat.add pow INR] in Hlo, Hhi.
  split; lra.
Qed.

Lemma sqrt_between (lo hi x : R) :
  0 <= lo -> lo * lo < x -> x < hi * hi -> 0 <= hi ->
  lo < sqrt x < hi.
Proof.
  intros Hlo Hl Hu Hhi.
  rewrite <- (sqrt_square lo), <- (sqrt_square hi) by assumption.
  split; apply sqrt_lt_1_alt; split; try assumption.
  - apply Rmult_le_pos; assumption.
  - apply Rle_trans with (lo * lo); [apply Rmult_le_pos; assumption | lra].
Qed.

Lemma equivalent_diameter_100 (crown_area_m2 : Q) :
  (crown_area_m2 == 100)%Q ->
  11.28375 < equivalent_diameter crown_area_m2 < 11.28385.
Proof.
  intros Ha. unfold equivalent_diameter.
  rewrite (Qeq_eqR _ _ Ha).
  replace (Q2R 100) with 100 by (unfold Q2R; cbn [Qnum Qden]; field).
  destruct PI_5_digits as [Hlo Hhi].
  assert (Hpos : 0 < PI) by lra.
  assert (Hq : 31.8308 < 100 / PI < 31.8312).
  { assert (He : 100 / PI * PI = 100) by (field; lra).
    split; apply Rmult_lt_reg_r with PI; try exact Hpos; rewrite He; lra. }
  assert (Hs : 5.641875 < sqrt (100 / PI) < 5.641925)
    by (apply sqrt_between; lra).
  lra.
Qed.

Lemma equivalent_diameter_0 (crown_area_m2 : Q) :
  (crown_area_m2 == 0)%Q -> equivalent_diameter crown_area_m2 = 0.
Proof.
  intros Ha. unfold equivalent_diameter.
  rewrite (Qeq_eqR _ _ Ha).
  replace (Q2R 0) with 0 by (unfold Q2R; cbn [Qnum Qden]; field).
  unfold Rdiv. rewrite Rmult_0_l, sqrt_0. lra.
Qed.

Section Backend.
Context {G : GeoBackend}.

Lemma derived_row (crowns : GeoDataFrame) (r : CrownRow) :
  In r (crown_rows (derive_columns crowns)) ->
  crown_area_m2 r = area (geometry (crown r)) /\
  crown_diameter_m r = equivalent_diameter (crown_area_m2 r).
Proof.
  unfold derive_columns; simpl. intros Hin.
  apply in_map_iff in Hin. destruct Hin as (cr & <- & _).
  split; reflexivity.
Qed.

Lemma normalize_and_derive_ret (crowns : GeoDataFrame) (out : CrownFrame) :
  normalize_and_derive crowns = Py.ret out ->
  exists metric, ensure_metric_units crowns = Py.ret metric /\
                 out = derive_columns metric.
Proof.
  unfold normalize_and_derive, Py.bind, Py.ret.
  destruct (ensure_metric_units crowns) as [err|metric]; intros H.
  - discriminate.
  - exists metric. split; [reflexivity|]. congruence.
Qed.

(** C3. Every row the stage returns has [crown_area_m2] the area of its
    polygon and [crown_diameter_m = 2 * sqrt(crown_area_m2 / pi)]; a
    10 m x 10 m square has area 100 and a diameter within 0.00005 of
    11.2838, and a polygon of area zero has diameter 0. *)
Theorem crown_diameter_of_area (crowns : GeoDataFrame) (out : CrownFrame)
    (r : CrownRow) :
  normalize_and_derive crowns = Py.ret out ->
  In r (crown_rows out) ->
  crown_area_m2 r = area (geometry (crown r)) /\
  crown_diameter_m r = 2 * sqrt (Q2R (crown_area_m2 r) / PI) /\
  (forall x y : Q,
      geometry (crown r) = box x y (x + 10) (y + 10) ->
      (crown_area_m2 r == 100)%Q /\
      11.28375 < crown_diameter_m r < 11.28385) /\
  ((crown_area_m2 r == 0)%Q -> crown_diameter_m r = 0).
Proof.
  intros Hrun Hin.
  destruct (normalize_and_derive_ret _ _ Hrun) as (metric & _ & ->).
  destruct (derived_row _ _ Hin) as [Harea Hdiam].
  split; [exact Harea|]. split; [exact Hdiam|]. split.
  - intros x y Hsq.
    assert (Ha : (crown_area_m2 r == 100)%Q).
    { rewrite Harea, Hsq. apply area_square_10. }
    split; [exact Ha|].
    rewrite Hdiam. apply equivalent_diameter_100, Ha.
  - intros Hz. rewrite Hdiam. apply equivalent_diameter_0, Hz.
Qed.

End Backend.

(** The row of the square crown of [Fixtures.frame_utm]. *)
Lemma crown_diameter_of_area_witness :
  let r := mkRow (mkCrown Fixtures.good_box Fixtures.square)
             (Fixtures.vertex_mean Fixtures.square)
             (area Fixtures.square)
             (equivalent_diameter (area Fixtures.square)) in
  (crown_area_m2 r == 100)%Q /\
  11.28375 < crown_diameter_m r < 11.28385.
Proof.
  intros r.
  destruct (@crown_diameter_of_area Fixtures.epsg_backend
              Fixtures.frame_utm (derive_columns Fixtures.frame_utm) r
              eq_refl (or_introl eq_refl))
    as (_ & _ & Hsq & _).
  apply (Hsq 0%Q 0%Q). reflexivity.
Defined.

End DeriverSpec.

(** ** Rounding *)

Module Float64Facts.
Import Float64.

Lemma rne_bounds (x : Q) : (Qfloor x <= rne x <= Qfloor x + 1)%Z.
Proof.
  unfold rne.
  destruct (Qcompare (x - inject_Z (Qfloor x)) (1 # 2));
    [destruct (Z.even (Qfloor x))| |]; lia.
Qed.

Lemma rne_nonneg (x : Q) : 0 <= x -> (0 <= rne x)%Z.
Proof.
  intros Hx. pose proof (rne_bounds x) as [Hlo _].
  pose proof (Qfloor_resp_le 0 x Hx) as Hf.
  change (Qfloor 0) with 0%Z in Hf. lia.
Qed.

Lemma rne_le_int (x : Q) (K : Z) : x <= inject_Z K -> (rne x <= K)%Z.
Proof.
  intros Hx.
  pose proof (Qfloor_resp_le _ _ Hx) as Hf. rewrite Qfloor_Z in Hf.
  pose proof (Qfloor_le x) as Hfl.
  unfold rne.
  destruct (Qcompare (x - inject_Z (Qfloor x)) (1 # 2)) eqn:Hc.
  - apply Qeq_alt in Hc.
    assert (Hlt : (Qfloor x < K)%Z).
    { rewrite Zlt_Qlt. lra. }
    destruct (Z.even (Qfloor x)); lia.
  - exact Hf.
  - apply Qgt_alt in Hc.
    assert (Hlt : (Qfloor x < K)%Z).
    { rewrite Zlt_Qlt. lra. }
    lia.
Qed.

Lemma two_pow_pos (z : Z) : 0 < 2 ^ z.
Proof. apply Qpower_0_lt. reflexivity. Qed.

Lemma rnd_pos_nonneg (q : Q) : 0 <= q -> 0 <= rnd_pos q.
Proof.
  intros Hq. unfold rnd_pos.
  set (ulp := Z.max (ilog2 q - 52) (-1074)).
  apply Qmult_le_0_compat.
  - change 0 with (inject_Z 0). rewrite <- Zle_Qle.
    apply rne_nonneg. apply Qmult_le_0_compat; [exact Hq|].
    apply Qlt_le_weak, two_pow_pos.
  - apply Qlt_le_weak, two_pow_pos.
Qed.

Lemma rnd_nonneg (q : Q) : 0 <= q -> 0 <= rnd q.
Proof.
  intros Hq. unfold rnd. rewrite Qred_correct.
  assert (Hr : 0 <= Qred q) by (now rewrite Qred_correct).
  destruct (Qcompare (Qred q) 0) eqn:Hc.
  - apply Qle_refl.
  - apply Qlt_alt in Hc. lra.
  - apply rnd_pos_nonneg, Hr.
Qed.

Lemma ilog2_lt (q : Q) (m : Z) :
  0 < q -> (0 <= m)%Z -> q < inject_Z (2 ^ m) -> (ilog2 q < m)%Z.
Proof.
  intros Hq Hm Hlt. unfold ilog2.
  set (k := (Z.log2 (Qnum q) - Z.log2 (Zpos (Qden q)))%Z).
  destruct (Qle_bool (2 ^ k) q) eqn:Hb.
  - apply Qle_bool_iff in Hb.
    apply (Qpower_lt_compat_l_inv 2); [|reflexivity].
    eapply Qle_lt_trans; [exact Hb|].
    rewrite <- (Zpower_Qpower 2 m Hm). exact Hlt.
  - assert (Hn : (0 < Qnum q)%Z).
    { destruct q as [n d]. unfold Qlt in Hq. simpl in *. lia. }
    assert (Hk : (k <= m)%Z); [|lia].
    unfold k.
    assert (Hd := Z.log2_spec (Zpos (Qden q)) (Pos2Z.is_pos _)).
    assert (Hnd : (Qnum q < 2 ^ m * Zpos (Qden q))%Z).
    { destruct q as [n d]. unfold Qlt in Hlt. simpl in *. lia. }
    assert (Hlog : (Z.log2 (Qnum q) < m + Z.succ (Z.log2 (Zpos (Qden q))))%Z).
    { apply Z.log2_lt_pow2; [exact Hn|].
      pose proof (Z.log2_nonneg (Zpos (Qden q))).
      rewrite Z.pow_add_r by lia.
      assert (0 < 2 ^ m)%Z by (apply Z.pow_pos_nonneg; lia).
      nia. }
    lia.
Qed.

Lemma rnd_pos_le_int (q : Q) (B : Z) :
  0 < q -> q <= inject_Z B -> (B < 2 ^ 52)%Z -> rnd_pos q <= inject_Z B.
Proof.
  intros Hq HB H52. unfold rnd_pos.
  set (ulp := Z.max (ilog2 q - 52) (-1074)).
  assert (Hlog : (ilog2 q < 52)%Z).
  { apply ilog2_lt; [exact Hq | lia |].
    eapply Qle_lt_trans; [exact HB|]. rewrite <- Zlt_Qlt. exact H52. }
  assert (Hulp : (0 <= - ulp)%Z) by (unfold ulp; lia).
  assert (Hone : 2 ^ (- ulp) * 2 ^ ulp == 1).
  { rewrite <- Qpower_plus by discriminate.
    replace (- ulp + ulp)%Z with 0%Z by lia. reflexivity. }
  assert (Hint : 2 ^ (- ulp) == inject_Z (2 ^ (- ulp)))
    by (rewrite Zpower_Qpower by exact Hulp; reflexivity).
  assert (Hx : q * 2 ^ (- ulp) <= inject_Z (B * 2 ^ (- ulp))).
  { rewrite inject_Z_mult, <- Hint.
    apply Qmult_le_compat_r; [exact HB|]. apply Qlt_le_weak, two_pow_pos. }
  apply rne_le_int in Hx. rewrite Zle_Qle in Hx.
  rewrite inject_Z_mult, <- Hint in Hx.
  pose proof (two_pow_pos ulp) as Hpos.
  apply Qle_trans with (inject_Z B * 2 ^ (- ulp) * 2 ^ ulp).
  - apply Qmult_le_compat_r; [exact Hx | apply Qlt_le_weak, Hpos].
  - rewrite <- Qmult_assoc, Hone. rewrite Qmult_1_r. apply Qle_refl.
Qed.

Lemma rnd_range (q : Q) (B : Z) :
  0 <= q -> q <= inject_Z B -> (B < 2 ^ 52)%Z ->
  0 <= rnd q <= inject_Z B.
Proof.
  intros Hq HB H52. split; [apply rnd_nonneg, Hq|].
  unfold rnd. rewrite Qred_correct.
  assert (Hr : Qred q <= inject_Z B) by (now rewrite Qred_correct).
  destruct (Qcompare (Qred q) 0) eqn:Hc.
  - lra.
  - apply Qlt_alt in Hc. rewrite Qred_correct in Hc. lra.
  - apply Qgt_alt in Hc. apply rnd_pos_le_int; assumption.
Qed.

(** A sum or product that is not negative rounds to a number that is not
    negative, infinity included. *)
Lemma round_nonneg (q : Q) : 0 <= q -> leb zero (round q) = true.
Proof.
  intros Hq. pose proof (rnd_nonneg q Hq) as Hr.
  unfold round.
  destruct (Qle_bool (2 ^ 1024) (rnd q)); [reflexivity|].
  destruct (Qle_bool (rnd q) (- 2 ^ 1024)) eqn:Hb.
  - apply Qle_bool_iff in Hb. exfalso.
    pose proof (two_pow_pos 1024). lra.
  - simpl. apply Qle_bool_iff, Hr.
Qed.

Lemma add_nonneg (x y : float) :
  leb zero x = true -> leb zero y = true -> leb zero (add x y) = true.
Proof.
  destruct x as [| |a|], y as [| |b|]; simpl; try discriminate;
    try reflexivity.
  intros Ha Hb. apply Qle_bool_iff in Ha, Hb.
  apply round_nonneg. lra.
Qed.

End Float64Facts.

(** ** The whole detection run *)

Module PipelineSpec.
Import DronePipeline.

Lemma combine_map_fst {X Y : Type} (g : X -> Y) (l : list X) :
  map fst (combine l (map g l)) = l /\
  map snd (combine l (map g l)) = map g l.
Proof.
  induction l as [|x l [IH1 IH2]]; simpl; [split; reflexivity|].
  rewrite IH1, IH2. split; reflexivity.
Qed.

Section Backend.
Context {G : GeoBackend}.

(** The frame of line 59 pairs every box with its own rectangle. *)
Lemma make_frame_columns (t : Affine) (boxes : list DetectionBox)
    (crs : option CRS) :
  map detection
    (rows (make_frame boxes (pixel_boxes_to_polygons t boxes) crs)) = boxes /\
  map geometry
    (rows (make_frame boxes (pixel_boxes_to_polygons t boxes) crs))
  = map (box_to_polygon t) boxes.
Proof.
  unfold make_frame. cbn [rows].
  rewrite TransformerSpec.pixel_boxes_to_polygons_map, !map_map.
  cbn [detection geometry].
  apply (combine_map_fst (box_to_polygon t)).
Qed.

(** What a run on a raster with a CRS can do. *)
Lemma detect_cases (t : Affine) (crs : CRS)
    (detections_df : option (list DetectionBox)) :
  (exists res,
     detect_tree_crowns_from_orthomosaic t (Some crs) detections_df
     = Py.ret res /\
     source_crs res = crs /\
     crown_crs (crowns_gdf res) <> None /\
     map (fun r => detection (crown r)) (crown_rows (crowns_gdf res))
     = match detections_df with
       | None => []
       | Some boxes => boxes
       end /\
     (is_geographic crs = false ->
      map (fun r => geometry (crown r)) (crown_rows (crowns_gdf res))
      = match detections_df with
        | None => []
        | Some boxes => map (box_to_polygon t) boxes
        end)) \/
  (detect_tree_crowns_from_orthomosaic t (Some crs) detections_df
   = Py.raise Py.CRSError /\
   is_geographic crs = true /\
   exists bx boxes,
     detections_df = Some (bx :: boxes) /\
     from_epsg
       (utm_epsg (unary_union_centroid (map (box_to_polygon t) (bx :: boxes))))
     = None).
Proof.
  unfold detect_tree_crowns_from_orthomosaic. cbn [from_user_input Py.bind Py.ret].
  destruct detections_df as [[|bx boxes]|].
  - left. eexists. split; [reflexivity|]. repeat split. discriminate.
  - set (all := bx :: boxes).
    set (crowns := make_frame all (pixel_boxes_to_polygons t all) (Some crs)).
    destruct (make_frame_columns t all (Some crs)) as [Hdet Hgeom].
    fold crowns in Hdet, Hgeom.
    unfold normalize_and_derive.
    destruct (NormalizerSpec.ensure_metric_units_cases crowns)
      as [(metric & Hrun & Hkeep & Hsame & Hcrs)
         |(Hrun & src & Hsrc & Hgeo & Hnone)].
    + left. rewrite Hrun. eexists. split; [reflexivity|].
      cbn [source_crs crowns_gdf crown_rows crown_crs derive_columns].
      split; [reflexivity|]. split; [apply Hcrs; discriminate|].
      rewrite !map_map. cbn [crown]. split.
      * transitivity (map detection (rows metric));
          [apply map_ext; reflexivity | now rewrite Hkeep].
      * intros Hno. rewrite (Hsame crs eq_refl Hno).
        transitivity (map geometry (rows crowns));
          [apply map_ext; reflexivity | exact Hgeom].
    + right. rewrite Hrun. split; [reflexivity|].
      assert (src = crs) by (unfold crowns, make_frame in Hsrc;
                             cbn [DronePipeline.crs] in Hsrc; congruence).
      subst src. split; [exact Hgeo|].
      exists bx, boxes. split; [reflexivity|].
      fold all. rewrite <- Hgeom. exact Hnone.
  - left. eexists. split; [reflexivity|]. repeat split. discriminate.
Qed.

(** C5. A raster without CRS fails the run with pyproj's CRSError when its
    CRS is read on line 42, before anything is detected, normalised or
    measured; and a run that returns area and diameter had a CRS to start
    from and hands back a frame that has one. *)
Theorem raster_without_crs_fails (t : Affine)
    (detections_df : option (list DetectionBox)) :
  detect_tree_crowns_from_orthomosaic t None detections_df
  = Py.raise Py.CRSError /\
  forall src_crs res,
    detect_tree_crowns_from_orthomosaic t src_crs detections_df = Py.ret res ->
    src_crs = Some (source_crs res) /\ crown_crs (crowns_gdf res) <> None.
Proof.
  split; [reflexivity|].
  intros [crs|] res Hrun; [|discriminate].
  destruct (detect_cases t crs detections_df)
    as [(res' & Hres & Hsrc & Hcrs & _)|(Hfail & _)].
  - rewrite Hres in Hrun. inversion Hrun; subst res'.
    split; [now rewrite Hsrc | exact Hcrs].
  - rewrite Hfail in Hrun. discriminate.
Qed.


(** X20. The rows of a run are the detections, in the detector's order and
    with its columns as they came; when the raster's CRS is not geographic
    the geometry of each row is the rectangle of its own box. *)
Theorem run_keeps_detections (t : Affine) (crs : CRS)
    (boxes : list DetectionBox) (res : DroneDetectionResult) :
  detect_tree_crowns_from_orthomosaic t (Some crs) (Some boxes) = Py.ret res ->
  map (fun r => detection (crown r)) (crown_rows (crowns_gdf res)) = boxes /\
  (is_geographic crs = false ->
   map (fun r => geometry (crown r)) (crown_rows (crowns_gdf res))
   = map (box_to_polygon t) boxes).
Proof.
  intros Hrun.
  destruct (detect_cases t crs (Some boxes))
    as [(res' & Hres & _ & _ & Hdet & Hgeom)|(Hfail & _)].
  - rewrite Hres in Hrun. inversion Hrun; subst res'.
    split; assumption.
  - rewrite Hfail in Hrun. discriminate.
Qed.

End Backend.

Lemma run_keeps_detections_witness :
  exists res,
    @detect_tree_crowns_from_orthomosaic Fixtures.epsg_backend
      Fixtures.north_up (Some 32610%Z)
      (Some [Fixtures.bad_box; Fixtures.good_box])
    = Py.ret res /\
    map (fun r => detection (crown r)) (crown_rows (crowns_gdf res))
    = [Fixtures.bad_box; Fixtures.good_box].
Proof.
  eexists. split; [reflexivity|].
  apply (@run_keeps_detections Fixtures.epsg_backend Fixtures.north_up
           32610%Z [Fixtures.bad_box; Fixtures.good_box]).
  reflexivity.
Defined.

End PipelineSpec.

(** * Further properties *)

(** ** The reference table *)

Module DatabaseFacts.
Import Database.

(** X1. Seeding happens once: a table with a row is left as it is, a seeded
    table is never empty, and seeding again changes nothing. *)
Theorem seed_defaults_once (t : table) :
  (t <> [] -> seed_defaults t = t) /\
  seed_defaults t <> [] /\
  seed_defaults (seed_defaults t) = seed_defaults t.
Proof.
  destruct t as [|r t].
  - split; [intros H; now elim H|].
    split; [discriminate | reflexivity].
  - split; [reflexivity|]. split; [discriminate | reflexivity].
Qed.

End DatabaseFacts.

(** ** The estimator, continued *)

Module EstimatorFacts.
Import Database Calculator.

(** On a table with a row the estimate is the carbon of the first row of the
    sorted table, which is a row of the table with a least distance. *)
Lemma estimate_head (db : table) (d h : Float64.float) :
  db <> [] ->
  exists r,
    In r db /\
    estimate_carbon_tonnes db d h = Py.ret (carbon_tonnes r) /\
    forall r', In r' db ->
      sql_leb (distance_expr d h r) (distance_expr d h r') = true.
Proof.
  intros Hne.
  destruct (order_by_head (distance_expr d h) db Hne)
    as (r & rest & Ho & Hin & Hmin).
  exists r. split; [exact Hin|]. split; [|exact Hmin].
  unfold estimate_carbon_tonnes. now rewrite Ho.
Qed.

(** X2. The estimator never raises: [LIMIT 1] keeps [scalar_one_or_none]
    from finding several rows.  What it returns is [0.0] on the empty table
    and a carbon value stored in the table otherwise. *)
Theorem estimate_never_raises (db : table) (d h : Float64.float) :
  exists v,
    estimate_carbon_tonnes db d h = Py.ret v /\
    ((db = [] /\ v = Float64.of_Q 0.0) \/ In v (map carbon_tonnes db)).
Proof.
  destruct db as [|r0 db].
  - exists (Float64.of_Q 0.0). split; [reflexivity|]. left. split; reflexivity.
  - destruct (estimate_head (r0 :: db) d h) as (r & Hin & Hrun & _);
      [discriminate|].
    exists (carbon_tonnes r). split; [exact Hrun|].
    right. apply in_map, Hin.
Qed.

Lemma estimate_head_or_zero (db : table) (d h : Float64.float) :
  exists v, estimate_carbon_tonnes db d h = Py.ret v.
Proof.
  destruct db as [|r0 db].
  - exists (Float64.of_Q 0.0). reflexivity.
  - destruct (estimate_head (r0 :: db) d h) as (r & _ & Hrun & _);
      [discriminate|].
    exists (carbon_tonnes r). exact Hrun.
Qed.



End EstimatorFacts.

(** ** The total over a list of crowns *)

Module OrchestrationFacts.
Import Database Calculator Orchestration.

(** The loop from any running total: every pair gets an estimate and the
    estimates are added to the total, one after the other. *)
Lemma loop_from (calculator : table)
    (pairs : list (Float64.float * Float64.float)) (acc : Float64.float) :
  exists ests,
    Forall2 (fun dh est =>
               estimate_carbon_tonnes calculator (fst dh) (snd dh) = Py.ret est)
            pairs ests /\
    fold_left
      (fun total dh =>
         acc <- total ;;
         est <- estimate_carbon_tonnes calculator (fst dh) (snd dh) ;;
         Py.ret (Float64.add acc est))
      pairs (Py.ret acc)
    = Py.ret (fold_left Float64.add ests acc).
Proof.
  revert acc. induction pairs as [|dh pairs IH]; intros acc.
  - exists []. split; [constructor | reflexivity].
  - destruct (EstimatorFacts.estimate_head_or_zero calculator (fst dh) (snd dh))
      as (est & Hest).
    destruct (IH (Float64.add acc est)) as (ests & Hall & Hrun).
    exists (est :: ests). split.
    + constructor; assumption.
    + simpl. rewrite Hest. simpl. exact Hrun.
Qed.

(** X5. [summarize_total_carbon] never raises, and its total is what adding
    the estimates of the pairs [zip(diameters_m, heights_m)] to [0.0] gives,
    one after the other in doubles. *)
Theorem summarize_is_sum (diameters_m heights_m : list Float64.float)
    (calculator : table) :
  exists ests,
    Forall2 (fun dh est =>
               estimate_carbon_tonnes calculator (fst dh) (snd dh) = Py.ret est)
            (combine diameters_m heights_m) ests /\
    summarize_total_carbon diameters_m heights_m calculator
    = Py.ret (fold_left Float64.add ests (Float64.of_Q 0.0)).
Proof.
  apply (loop_from calculator (combine diameters_m heights_m)
           (Float64.of_Q 0.0)).
Qed.

Lemma combine_app_longer {X Y : Type} (l extra : list X) (l' : list Y) :
  List.length l = List.length l' ->
  combine (l ++ extra) l' = combine l l'.
Proof.
  revert l'. induction l as [|x l IH]; intros [|y l'] Hlen;
    simpl in *; try discriminate.
  - now destruct extra.
  - f_equal. apply IH. congruence.
Qed.

Lemma combine_longer_app {X Y : Type} (l : list X) (l' extra : list Y) :
  List.length l = List.length l' ->
  combine l (l' ++ extra) = combine l l'.
Proof.
  revert l'. induction l as [|x l IH]; intros [|y l'] Hlen;
    simpl in *; try discriminate.
  - reflexivity.
  - f_equal. apply IH. congruence.
Qed.

(** X6. [zip] stops at the shorter list: diameters without a height, and
    heights without a diameter, do not count and raise nothing. *)
Theorem summarize_ignores_unpaired
    (diameters_m heights_m extra : list Float64.float) (calculator : table) :
  List.length diameters_m = List.length heights_m ->
  summarize_total_carbon (diameters_m ++ extra) heights_m calculator
  = summarize_total_carbon diameters_m heights_m calculator /\
  summarize_total_carbon diameters_m (heights_m ++ extra) calculator
  = summarize_total_carbon diameters_m heights_m calculator.
Proof.
  intros Hlen. unfold summarize_total_carbon.
  rewrite combine_app_longer, combine_longer_app by exact Hlen.
  split; reflexivity.
Qed.

Lemma summarize_ignores_unpaired_witness :
  summarize_total_carbon
    (map Float64.of_Q [4.0; 6.0] ++ map Float64.of_Q [8.0])
    (map Float64.of_Q [8.0; 12.0]) Fixtures.seed
  = summarize_total_carbon (map Float64.of_Q [4.0; 6.0])
      (map Float64.of_Q [8.0; 12.0]) Fixtures.seed /\
  summarize_total_carbon (map Float64.of_Q [4.0; 6.0])
    (map Float64.of_Q [8.0; 12.0] ++ map Float64.of_Q [8.0]) Fixtures.seed
  = summarize_total_carbon (map Float64.of_Q [4.0; 6.0])
      (map Float64.of_Q [8.0; 12.0]) Fixtures.seed.
Proof.
  apply (summarize_ignores_unpaired (map Float64.of_Q [4.0; 6.0])
           (map Float64.of_Q [8.0; 12.0]) (map Float64.of_Q [8.0])
           Fixtures.seed).
  reflexivity.
Defined.

(** X8. On a table without rows the total is zero, whatever the lists
    are. *)
Theorem summarize_empty_store (diameters_m heights_m : list Float64.float) :
  summarize_total_carbon diameters_m heights_m [] = Py.ret (Float64.of_Q 0).
Proof.
  unfold summarize_total_carbon.
  assert (Hgen : forall pairs : list (Float64.float * Float64.float),
            fold_left
              (fun total dh =>
                 acc <- total ;;
                 est <- estimate_carbon_tonnes [] (fst dh) (snd dh) ;;
                 Py.ret (Float64.add acc est))
              pairs (Py.ret (Float64.of_Q 0.0))
            = Py.ret (Float64.of_Q 0)).
  { induction pairs as [|dh pairs IH].
    - reflexivity.
    - simpl. exact IH. }
  apply Hgen.
Qed.

(** X7. With carbon values in the table that are numbers and not negative,
    the total is a number that is not negative either (it may be infinite,
    it is never NaN). *)
Theorem summarize_nonneg (diameters_m heights_m : list Float64.float)
    (calculator : table) :
  (forall r, In r calculator ->
     Float64.leb Float64.zero (carbon_tonnes r) = true) ->
  exists total,
    summarize_total_carbon diameters_m heights_m calculator = Py.ret total /\
    Float64.leb Float64.zero total = true.
Proof.
  intros Hpos.
  destruct (loop_from calculator (combine diameters_m heights_m)
              (Float64.of_Q 0.0)) as (ests & Hall & Hrun).
  exists (fold_left Float64.add ests (Float64.of_Q 0.0)).
  split; [exact Hrun|].
  assert (Hests : Forall (fun est => Float64.leb Float64.zero est = true) ests).
  { clear Hrun. induction Hall as [|dh est pairs ests Hest _ IH].
    - constructor.
    - constructor; [|exact IH].
      destruct calculator as [|r0 calculator].
      + injection Hest as <-. reflexivity.
      + destruct (EstimatorFacts.estimate_head (r0 :: calculator)
                    (fst dh) (snd dh)) as (r & Hr & Hrun & _);
          [discriminate|].
        rewrite Hrun in Hest. injection Hest as <-. apply Hpos, Hr. }
  assert (Hgen : forall acc, Float64.leb Float64.zero acc = true ->
            Float64.leb Float64.zero (fold_left Float64.add ests acc) = true).
  { clear Hall Hrun. induction Hests as [|est ests Hest _ IH]; intros acc Hacc.
    - exact Hacc.
    - simpl. apply IH, Float64Facts.add_nonneg; assumption. }
  apply Hgen. reflexivity.
Qed.

Lemma summarize_nonneg_witness :
  exists total,
    summarize_total_carbon (map Float64.of_Q [4.0; 6.0])
      (map Float64.of_Q [8.0; 12.0]) Fixtures.seed = Py.ret total /\
    Float64.leb Float64.zero total = true.
Proof.
  apply (summarize_nonneg (map Float64.of_Q [4.0; 6.0])
           (map Float64.of_Q [8.0; 12.0]) Fixtures.seed).
  intros r Hin. vm_compute in Hin.
  destruct Hin as [<-|[<-|[<-|[<-|[]]]]]; vm_compute; reflexivity.
Defined.

End OrchestrationFacts.

(** ** The session's table and the estimate column *)

Module AppFacts.
Import Database Calculator App AppPages.

(** X9. Whatever the database held at start-up, after [init_state] the
    column [est_carbon_t] is computed without an exception, has one value
    for each crown, and every value is a carbon value stored in the table:
    the [0.0] of the empty table is never what a crown gets. *)
Theorem est_column_after_init (db : option table) (crowns : list Series) :
  exists column,
    est_carbon_t_column (init_state db) crowns = Py.ret column /\
    List.length column = List.length crowns /\
    Forall (fun v => In v (map carbon_tonnes (init_state db))) column.
Proof.
  assert (Hne : init_state db <> []).
  { unfold init_state. destruct (create_tables db); discriminate. }
  unfold est_carbon_t_column.
  induction crowns as [|r crowns (column & Hrun & Hlen & Hall)].
  - exists []. repeat split. constructor.
  - destruct (EstimatorFacts.estimate_head (init_state db)
                (crown_diameter_m r)
                (Py.or_else (max_height_m r) (Float64.of_Q 10.0)) Hne)
      as (row & Hin & Hest & _).
    exists (carbon_tonnes row :: column). split; [|split].
    + simpl. unfold est_carbon_t at 1. rewrite Hest. simpl.
      rewrite Hrun. reflexivity.
    + simpl. now rewrite Hlen.
    + constructor; [apply in_map, Hin | exact Hall].
Qed.

End AppFacts.

(** ** The transformer, continued *)

Module TransformerFacts.
Import DronePipeline.

Lemma max_minus_min (x y : Q) : Qmax x y - Qmin x y == Qabs (y - x).
Proof.
  destruct (Qlt_le_dec y x) as [Hlt|Hle].
  - rewrite Q.max_l, Q.min_r by (apply Qlt_le_weak, Hlt).
    rewrite Qabs_neg by lra. ring.
  - rewrite Q.max_r, Q.min_l by exact Hle.
    rewrite Qabs_pos by lra. ring.
Qed.

Lemma area_box_to_polygon (t : Affine) (bx : DetectionBox) :
  area (box_to_polygon t bx)
  == Qabs (a t * (xmax bx - xmin bx) + b t * (ymax bx - ymin bx))
     * Qabs (d t * (xmax bx - xmin bx) + e t * (ymax bx - ymin bx)).
Proof.
  destruct (TransformerSpec.xy_ul t (ymin bx) (xmin bx)) as [Hx1 Hy1].
  destruct (TransformerSpec.xy_ul t (ymax bx) (xmax bx)) as [Hx2 Hy2].
  unfold box_to_polygon.
  destruct (xy t (ymin bx) (xmin bx) ul) as [x1 y1].
  destruct (xy t (ymax bx) (xmax bx) ul) as [x2 y2].
  simpl in Hx1, Hy1, Hx2, Hy2.
  rewrite DeriverSpec.area_box, Qabs_Qmult, !max_minus_min.
  rewrite !(Qabs_pos (Qabs _)) by apply Qabs_nonneg.
  assert (Hdx : x2 - x1
                == a t * (xmax bx - xmin bx) + b t * (ymax bx - ymin bx))
    by (rewrite Hx1, Hx2; ring).
  assert (Hdy : y2 - y1
                == d t * (xmax bx - xmin bx) + e t * (ymax bx - ymin bx))
    by (rewrite Hy1, Hy2; ring).
  now rewrite Hdx, Hdy.
Qed.

Local Open Scope R_scope.

(** X13. A box without width or without height, on a raster whose transform
    has no rotation terms, becomes a polygon of area 0, for which line 70
    gives the diameter 0. *)
Theorem empty_box_has_no_diameter (t : Affine) (bx : DetectionBox) :
  (b t == 0)%Q -> (d t == 0)%Q ->
  (xmin bx == xmax bx)%Q \/ (ymin bx == ymax bx)%Q ->
  (area (box_to_polygon t bx) == 0)%Q /\
  equivalent_diameter (area (box_to_polygon t bx)) = 0.
Proof.
  intros Hb Hd Hflat.
  assert (Ha : (area (box_to_polygon t bx) == 0)%Q).
  { rewrite area_box_to_polygon, Hb, Hd.
    destruct Hflat as [Hw|Hh].
    - assert (Hz : (a t * (xmax bx - xmin bx) + 0 * (ymax bx - ymin bx) == 0)%Q)
        by (rewrite Hw; ring).
      rewrite Hz. change (Qabs 0) with 0%Q. ring.
    - assert (Hz : (0 * (xmax bx - xmin bx) + e t * (ymax bx - ymin bx) == 0)%Q)
        by (rewrite Hh; ring).
      rewrite Hz. change (Qabs 0) with 0%Q. ring. }
  split; [exact Ha|].
  apply DeriverSpec.equivalent_diameter_0, Ha.
Qed.

Lemma empty_box_has_no_diameter_witness :
  (area (box_to_polygon Fixtures.north_up (mkBox 10 20 10 120 0.9 "Tree"))
   == 0)%Q /\
  equivalent_diameter
    (area (box_to_polygon Fixtures.north_up (mkBox 10 20 10 120 0.9 "Tree")))
  = 0.
Proof.
  apply (empty_box_has_no_diameter Fixtures.north_up
           (mkBox 10 20 10 120 0.9 "Tree")).
  - reflexivity.
  - reflexivity.
  - left. reflexivity.
Defined.

End TransformerFacts.

(** ** The CRS normaliser, continued *)

Module NormalizerFacts.
Import DronePipeline.

Lemma zone_between (p : point) :
  -180 <= fst p -> fst p <= 180 -> (1 <= utm_zone p <= 61)%Z.
Proof.
  intros Hw He.
  rewrite NormalizerSpec.utm_zone_floor.
  destruct (Float64Facts.rnd_range (fst p + 180) 360) as [Hlo Hhi];
    [lra | change (inject_Z 360) with 360; lra | reflexivity |].
  change (inject_Z 360) with 360 in Hhi.
  assert (H0 : (0 <= Qfloor (Float64.rnd (fst p + 180) / 6))%Z).
  { change 0%Z with (Qfloor 0). apply Qfloor_resp_le.
    apply Qle_shift_div_l; lra. }
  assert (H60 : (Qfloor (Float64.rnd (fst p + 180) / 6) <= 60)%Z).
  { change 60%Z with (Qfloor 60). apply Qfloor_resp_le.
    apply Qle_shift_div_r; lra. }
  lia.
Qed.

(** X14. For a centroid between 180 W and 180 E the zone of line 64 lies
    between 1 and 61; because the sum [longitude + 180] is rounded, 61,
    which is no UTM zone, is reached not only at 180 E but already at the
    double [179.99999999999997]. *)
Theorem utm_zone_range (p : point) :
  -180 <= fst p -> fst p <= 180 ->
  (1 <= utm_zone p <= 61)%Z /\
  utm_zone (Float64.rnd 179.99999999999997, 0%Q) = 61%Z.
Proof.
  intros Hw He. split; [|vm_compute; reflexivity].
  apply zone_between; assumption.
Qed.

Lemma utm_zone_range_witness :
  (1 <= utm_zone (Fixtures.west_of_6W, 10%Q) <= 61)%Z /\
  utm_zone (Float64.rnd 179.99999999999997, 0%Q) = 61%Z.
Proof.
  apply (utm_zone_range (Fixtures.west_of_6W, 10%Q));
    vm_compute; discriminate.
Defined.

(** X15. For a centroid between 180 W and 180 E the code of line 65 is one
    of EPSG 32601..32661 on and north of the equator and one of EPSG
    32701..32761 south of it. *)
Theorem utm_epsg_range (centroid : point) :
  -180 <= fst centroid -> fst centroid <= 180 ->
  (0 <= snd centroid -> (32601 <= utm_epsg centroid <= 32661)%Z) /\
  (snd centroid < 0 -> (32701 <= utm_epsg centroid <= 32761)%Z).
Proof.
  intros Hw He.
  pose proof (zone_between centroid Hw He) as Hrange.
  unfold utm_epsg. split; intros Hlat.
  - apply Qle_bool_iff in Hlat. rewrite Hlat. lia.
  - destruct (Qle_bool 0 (snd centroid)) eqn:Hb.
    + apply Qle_bool_iff in Hb. lra.
    + lia.
Qed.

Lemma utm_epsg_range_witness :
  (0 <= 49.1875 ->
   (32601 <= utm_epsg (-123.125, 49.1875)%Q <= 32661)%Z) /\
  (49.1875 < 0 ->
   (32701 <= utm_epsg (-123.125, 49.1875)%Q <= 32761)%Z).
Proof.
  apply (utm_epsg_range (-123.125, 49.1875)); discriminate.
Defined.

Section Backend.
Context {G : GeoBackend}.

(** X16. Normalising twice is normalising once, as long as the UTM system
    the batch is sent to is not a geographic one: the second pass finds a
    projected frame and leaves it alone. *)
Theorem ensure_metric_units_idempotent (crowns metric : GeoDataFrame) :
  (forall dst,
     from_epsg
       (utm_epsg (unary_union_centroid (map geometry (rows crowns))))
     = Some dst ->
     is_geographic dst = false) ->
  ensure_metric_units crowns = Py.ret metric ->
  ensure_metric_units metric = Py.ret metric.
Proof.
  intros Hutm Hrun.
  unfold ensure_metric_units in Hrun.
  destruct (crs crowns) as [src|] eqn:Hcrs.
  - destruct (is_geographic src) eqn:Hgeo.
    + unfold to_crs in Hrun. rewrite Hcrs in Hrun.
      destruct (from_epsg
                  (utm_epsg (unary_union_centroid (map geometry (rows crowns)))))
        as [dst|] eqn:Hdst; [|discriminate].
      injection Hrun as <-.
      unfold ensure_metric_units. cbn [crs]. now rewrite (Hutm dst eq_refl).
    + injection Hrun as <-.
      unfold ensure_metric_units. now rewrite Hcrs, Hgeo.
  - injection Hrun as <-.
    unfold ensure_metric_units. now rewrite Hcrs.
Qed.


End Backend.

Lemma ensure_metric_units_idempotent_witness :
  exists metric,
    ensure_metric_units Fixtures.frame_wgs84 = Py.ret metric /\
    ensure_metric_units metric = Py.ret metric.
Proof.
  eexists. split; [vm_compute; reflexivity|].
  apply (@ensure_metric_units_idempotent Fixtures.epsg_backend
           Fixtures.frame_wgs84).
  - intros dst Hdst. vm_compute in Hdst. injection Hdst as <-. reflexivity.
  - vm_compute. reflexivity.
Defined.

End NormalizerFacts.

(** ** The satellite page's arithmetic *)

Module SatelliteFacts.
Import SatellitePipeline.

(** X22. With reflectances that are not negative and not both zero, the
    NDVI of a pixel lies in [-1, 1], so that line 41 gives it between -10
    and 14 "tonnes per hectare"; the value is negative exactly when
    [7 * B8 < 5 * B4]. *)
Theorem carbon_t_ha_range (b8 b4 : Q) :
  0 <= b8 -> 0 <= b4 -> 0 < b8 + b4 ->
  -1 <= normalizedDifference b8 b4 <= 1 /\
  -10 <= carbon_t_ha (normalizedDifference b8 b4) <= 14 /\
  (carbon_t_ha (normalizedDifference b8 b4) < 0 <-> 7 * b8 < 5 * b4).
Proof.
  intros H8 H4 Hs.
  unfold carbon_t_ha.
  assert (Hn : normalizedDifference b8 b4 * (b8 + b4) == b8 - b4)
    by (unfold normalizedDifference; field; lra).
  set (n := normalizedDifference b8 b4) in *.
  assert (Hlo : -1 <= n).
  { destruct (Qlt_le_dec n (-1)) as [Hlt|Hle]; [|exact Hle].
    exfalso. assert ((n + 1) * (b8 + b4) < 0) by nra. nra. }
  assert (Hhi : n <= 1).
  { destruct (Qlt_le_dec 1 n) as [Hlt|Hle]; [|exact Hle].
    exfalso. assert (0 < (n - 1) * (b8 + b4)) by nra. nra. }
  split; [split; assumption|]. split; [split; lra|].
  split; intros H.
  - assert (Hneg : (n * 12 + 2) * (b8 + b4) < 0) by nra. nra.
  - destruct (Qlt_le_dec (n * 12 + 2) 0) as [Hlt|Hle]; [exact Hlt|].
    exfalso. assert (0 <= (n * 12 + 2) * (b8 + b4)) by nra. nra.
Qed.

Lemma carbon_t_ha_range_witness :
  -1 <= normalizedDifference 0.1 0.3 <= 1 /\
  -10 <= carbon_t_ha (normalizedDifference 0.1 0.3) <= 14 /\
  (carbon_t_ha (normalizedDifference 0.1 0.3) < 0 <-> 7 * 0.1 < 5 * 0.3).
Proof.
  apply (carbon_t_ha_range 0.1 0.3); [discriminate | discriminate | reflexivity].
Defined.

(** X24. Lines 52-57 succeed exactly on a geometry without ["coordinates"],
    where the centre stays [[0, 0]], and on a polygon whose first ring has a
    position; a polygon without ring ends in [IndexError] and an empty first
    ring in [ZeroDivisionError]. *)
Theorem map_center_failures (coordinates : option (list (list position))) :
  (coordinates = None ->
   map_center coordinates = inr (Float64.zero, Float64.zero)) /\
  (coordinates = Some [] -> map_center coordinates = inl IndexError) /\
  (forall holes, coordinates = Some ([] :: holes) ->
     map_center coordinates = inl ZeroDivisionError) /\
  ((exists centre, map_center coordinates = inr centre) <->
   coordinates = None \/
   exists p ring holes, coordinates = Some ((p :: ring) :: holes)).
Proof.
  split; [intros ->; reflexivity|].
  split; [intros ->; reflexivity|].
  split; [intros holes ->; reflexivity|].
  split.
  - intros (centre & Hrun).
    destruct coordinates as [[|[|p ring] holes]|].
    + discriminate.
    + discriminate.
    + right. exists p, ring, holes. reflexivity.
    + left. reflexivity.
  - intros [->|(p & ring & holes & ->)].
    + eexists. reflexivity.
    + eexists. reflexivity.
Qed.

End SatelliteFacts.
